(** * index.py configuration resolver: [index/config.py]

    A shallow embedding of the case-insensitive nested dictionary
    [UpperDict], of the environment overlay [_import_environ] and of the
    [Config] object built on them, followed by the properties of the
    configuration resolver that the embedding settles.

    Python objects are values of [pyobj]; the storage dictionary of an
    [UpperDict] (its private attribute [_UpperDict__dict]) is a finite map
    from strings to objects.  Methods that mutate the dictionary take the
    storage and return the storage they leave behind together with either
    a result or the exception they raise, so that what a failed call has
    already written stays visible.

    Strings are ASCII: [upper] folds the letters a-z and leaves every
    other character alone, which is what [str.upper] does on ASCII text. *)

From Stdlib Require Import ZArith Ascii String Floats.
From stdpp Require Import gmap strings list fin_maps.

Set Warnings "-register-all".
Local Open Scope Z_scope.
Local Open Scope string_scope.

(** ** Python values *)

(** The objects a configuration can hold: what [json.load] produces, the
    tuples and [None] of the defaults, the [...] sentinel of
    [__getattr__], and [UpperDict] instances themselves.  A [PDict] is a
    plain [dict], its items in insertion order (keys pairwise distinct in
    a well-formed one); a [PUpper] is an [UpperDict] instance, given by
    its storage. *)
Inductive pyobj : Type :=
  | PNone
  | PEllipsis
  | PBool (b : bool)
  | PInt (z : Z)
  | PFloat (f : float)
  | PStr (s : string)
  | PList (l : list pyobj)
  | PTuple (l : list pyobj)
  | PDict (items : list (string * pyobj))
  | PUpper (d : gmap string pyobj).

(** Exceptions.  The two classes of the module carry their message;
    [ConfigFileError] is a subclass of [ConfigError].  [IOError] stands
    for whatever opening or decoding a file raises. *)
Inductive exn : Type :=
  | KeyError
  | TypeError
  | ValueError
  | OverflowError
  | AttributeError
  | IOError (what : string)
  | ConfigError (msg : string)
  | ConfigFileError (msg : string).

Inductive result (A : Type) : Type :=
  | Ok (a : A)
  | Raise (e : exn).
Arguments Ok {A} a.
Arguments Raise {A} e.


(** [isinstance(value, dict)] *)
Definition is_dict (v : pyobj) : bool :=
  match v with
  | PDict _ => true
  | _ => false
  end.

(** [value is None] *)
Definition is_None (v : pyobj) : bool :=
  match v with
  | PNone => true
  | _ => false
  end.

(** ** Strings *)

Definition is_lower (c : ascii) : bool :=
  let n := nat_of_ascii c in ((97 <=? n) && (n <=? 122))%nat.

Definition upper_char (c : ascii) : ascii :=
  if is_lower c then ascii_of_nat (nat_of_ascii c - 32) else c.

(** [str.upper] *)
Fixpoint upper (s : string) : string :=
  match s with
  | EmptyString => EmptyString
  | String c r => String (upper_char c) (upper r)
  end.



(** ** Builtins used by the write path *)

(** Plain [dict] item assignment and lookup, on the item list. *)
Fixpoint dict_setitem (k : string) (v : pyobj) (items : list (string * pyobj))
  : list (string * pyobj) :=
  match items with
  | [] => [(k, v)]
  | (k', v') :: rest =>
      if String.eqb k' k then (k', v) :: rest
      else (k', v') :: dict_setitem k v rest
  end.

Fixpoint dict_lookup (k : string) (items : list (string * pyobj)) : option pyobj :=
  match items with
  | [] => None
  | (k', v') :: rest => if String.eqb k' k then Some v' else dict_lookup k rest
  end.

(** [bool(value)].  An [UpperDict] defines neither [__bool__] nor
    [__len__], so an instance is true. *)
Definition py_bool (v : pyobj) : bool :=
  match v with
  | PNone => false
  | PEllipsis => true
  | PBool b => b
  | PInt z => negb (Z.eqb z 0)
  | PFloat f => negb (PrimFloat.eqb f PrimFloat.zero)
  | PStr s => negb (String.eqb s "")
  | PList l | PTuple l => match l with [] => false | _ => true end
  | PDict items => match items with [] => false | _ => true end
  | PUpper _ => true
  end.

(** Whitespace that [int] strips from both ends of a string. *)
Definition is_space (c : ascii) : bool :=
  let n := nat_of_ascii c in
  ((9 <=? n) && (n <=? 13) || (28 <=? n) && (n <=? 32))%nat.

Definition is_digit (c : ascii) : bool :=
  let n := nat_of_ascii c in ((48 <=? n) && (n <=? 57))%nat.

Definition digit_val (c : ascii) : Z := Z.of_nat (nat_of_ascii c) - 48.

Fixpoint lstrip (l : list ascii) : list ascii :=
  match l with
  | c :: r => if is_space c then lstrip r else l
  | [] => []
  end.

Definition strip (l : list ascii) : list ascii := rev (lstrip (rev (lstrip l))).

(** Decimal digits, single underscores allowed between two digits. *)
Fixpoint digits (l : list ascii) (acc : Z) (after_digit : bool) : option Z :=
  match l with
  | [] => if after_digit then Some acc else None
  | c :: r =>
      if is_digit c then digits r (10 * acc + digit_val c) true
      else if Ascii.eqb c "_" && after_digit then digits r acc false
      else None
  end.

(** [int(s)] for a string: [None] when [s] is no integer literal. *)
Definition int_of_str (s : string) : option Z :=
  match strip (list_ascii_of_string s) with
  | "+"%char :: r => digits r 0 false
  | "-"%char :: r => Z.opp <$> digits r 0 false
  | l => digits l 0 false
  end.

(** [int(f)] for a float: truncation toward zero. *)
Definition int_of_float (f : float) : result Z :=
  match Prim2SF f with
  | S754_zero _ => Ok 0
  | S754_infinity _ => Raise OverflowError
  | S754_nan => Raise ValueError
  | S754_finite s m e =>
      let a := match e with
               | Z0 => Zpos m
               | Zpos p => Z.shiftl (Zpos m) (Zpos p)
               | Zneg p => Z.shiftr (Zpos m) (Zpos p)
               end in
      Ok (if s then - a else a)
  end.

(** [int(value)] *)
Definition py_int (v : pyobj) : result Z :=
  match v with
  | PBool b => Ok (if b then 1 else 0)
  | PInt z => Ok z
  | PFloat f => int_of_float f
  | PStr s => match int_of_str s with Some z => Ok z | None => Raise ValueError end
  | _ => Raise TypeError
  end.

(** [list(value)].  Iterating an [UpperDict] falls back on
    [__getitem__(0)], whose [key.upper()] fails on the integer. *)
Definition py_list (v : pyobj) : result (list pyobj) :=
  match v with
  | PList l | PTuple l => Ok l
  | PStr s => Ok ((fun c => PStr (String c "")) <$> list_ascii_of_string s)
  | PDict items => Ok ((fun kv => PStr (fst kv)) <$> items)
  | PUpper _ => Raise AttributeError
  | _ => Raise TypeError
  end.

(** ** UpperDict *)

(** A [for k, v in items] loop whose body may raise: the loop stops at
    the first exception and keeps what the body did so far. *)
Definition for_items {S : Type}
    (body : string -> pyobj -> S -> S * result unit)
  : list (string * pyobj) -> S -> S * result unit :=
  fix loop its s :=
    match its with
    | [] => (s, Ok tt)
    | (k, v) :: rest =>
        let '(s', r) := body k v s in
        match r with
        | Ok _ => loop rest s'
        | Raise e => (s', Raise e)
        end
    end.

(** [UpperDict.__setitem__].  In the merge branch [self.__dict[key]] is
    whatever object the key holds: the loop assigns into it by item, which
    reaches this method again when it is an [UpperDict], is plain [dict]
    assignment on a [dict], and is a [TypeError] on anything else. *)
Fixpoint UpperDict_setitem (key : string) (value : pyobj) (d : gmap string pyobj)
    {struct value} : gmap string pyobj * result unit :=
  let key := upper key in
  match value with
  | PDict items =>
      match d !! key with
      | Some target =>
          let '(target', r) :=
            for_items (fun k v t =>
              match t with
              | PUpper c =>
                  let '(c', r) := UpperDict_setitem (upper k) v c in
                  (PUpper c', r)
              | PDict raw => (PDict (dict_setitem (upper k) v raw), Ok tt)
              | _ => (t, Raise TypeError)
              end) items target in
          (<[key := target']> d, r)
      | None =>
          let '(c, r) := for_items UpperDict_setitem items ∅ in
          match r with
          | Ok _ => (<[key := PUpper c]> d, Ok tt)
          | Raise e => (d, Raise e)
          end
      end
  | _ => (<[key := value]> d, Ok tt)
  end.

(** The body of the merge loop, [target[k.upper()] = v], as a function
    of its own: [UpperDict_setitem_dict] below shows the loop of
    [UpperDict_setitem] is a loop of it. *)
Definition assign_item (k : string) (v : pyobj) (target : pyobj)
  : pyobj * result unit :=
  match target with
  | PUpper c =>
      let '(c', r) := UpperDict_setitem (upper k) v c in
      (PUpper c', r)
  | PDict raw => (PDict (dict_setitem (upper k) v raw), Ok tt)
  | _ => (target, Raise TypeError)
  end.

(** [UpperDict(data)]: the storage of the new instance, or the exception
    the constructor raises. *)
Definition UpperDict_init (data : list (string * pyobj))
  : gmap string pyobj * result unit :=
  for_items UpperDict_setitem data ∅.

(** [UpperDict.__getitem__] *)
Definition UpperDict_getitem (key : string) (d : gmap string pyobj) : result pyobj :=
  match d !! upper key with
  | Some v => Ok v
  | None => Raise KeyError
  end.

(** [UpperDict.get] *)
Definition UpperDict_get (key : string) (default : pyobj) (d : gmap string pyobj)
  : result pyobj :=
  match UpperDict_getitem key d with
  | Raise KeyError => Ok default
  | r => r
  end.

(** [UpperDict.__getattr__], reached for a name that ordinary attribute
    lookup does not find.  [get] is the [get] of the instance's own class
    ([self.get] dispatches on it); the sentinel [...] tells an absent key
    from a key holding [None]. *)
Definition getattr_via (get : string -> pyobj -> gmap string pyobj -> result pyobj)
    (name : string) (d : gmap string pyobj) : result pyobj :=
  match get name PEllipsis d with
  | Ok PEllipsis => Raise AttributeError
  | Ok value => Ok value
  | Raise KeyError => Raise AttributeError
  | Raise e => Raise e
  end.

Definition UpperDict_getattr : string -> gmap string pyobj -> result pyobj :=
  getattr_via UpperDict_get.

(** ** The environment overlay *)

(** What the process hands to the module: [os.environ], and for each file
    name of the working directory that exists, what opening and decoding
    it gives ([json.load] and [yaml.safe_load] are external). *)
Record world : Type := World {
  environ : string -> option string;
  files : string -> option (result pyobj)
}.

(** Truth of [os.environ.get(name)]: present and not empty. *)
Definition environ_truthy (o : option string) : bool :=
  match o with
  | Some s => negb (String.eqb s "")
  | None => false
  end.

(** [os.environ.get("INDEX_DEBUG") in ("on", "True")] *)
Definition debug_token (o : option string) : bool :=
  match o with
  | Some s => String.eqb s "on" || String.eqb s "True"
  | None => false
  end.

(** [_import_environ], the items of the [dict] it returns. *)
Definition _import_environ (environ : string -> option string)
  : list (string * pyobj) :=
  let result := [] in
  let result :=
    if environ_truthy (environ "INDEX_DEBUG")
    then dict_setitem "debug" (PBool (debug_token (environ "INDEX_DEBUG"))) result
    else result in
  let result :=
    match environ "INDEX_ENV" with
    | Some s =>
        if environ_truthy (Some s) then dict_setitem "env" (PStr s) result
        else result
    | None => result
    end in
  result.

(** ** Config *)

Definition mutation_msg : string :=
  "Modifying the attribute value of Config is not allowed.".

Definition conflict_msg (first second : string) : string :=
  "`" ++ first ++ "` and `" ++ second ++ "` cannot be used at the same project.".

Definition deprecation_msg : string :=
  "Please use `index.json` or` index.yaml`, `config.json` will be deprecated in 0.8.".

Definition candidates : list string :=
  ["config.json"; "index.json"; "index.yaml"; "index.yml"].

(** [Config.__setitem__] *)
Definition Config_setitem (key : string) (value : pyobj) (d : gmap string pyobj)
  : gmap string pyobj * result unit :=
  let key := upper key in
  let coerced :=
    if String.eqb key "DEBUG" then Ok (PBool (py_bool value))
    else if String.eqb key "PORT" then
      match py_int value with
      | Ok z => Ok (PInt z)
      | Raise e => Raise e
      end
    else if String.eqb key "ALLOWED_HOSTS" then
      match py_list value with
      | Ok l => Ok (PList (l ++ [PStr "testserver"]))
      | Raise e => Raise e
      end
    else Ok value in
  match coerced with
  | Ok value => UpperDict_setitem key value d
  | Raise e => (d, Raise e)
  end.

(** [Config.update] *)
Definition Config_update (data : list (string * pyobj))
  : gmap string pyobj -> gmap string pyobj * result unit :=
  for_items Config_setitem data.

(** One statement after another. *)
Definition and_then (m1 m2 : gmap string pyobj -> gmap string pyobj * result unit)
  : gmap string pyobj -> gmap string pyobj * result unit :=
  fun d =>
    let '(d', r) := m1 d in
    match r with
    | Ok _ => m2 d'
    | Raise e => (d', Raise e)
    end.
Infix ">>" := and_then (at level 62, right associativity).

(** [Config.setdefault] *)
Definition Config_setdefault : gmap string pyobj -> gmap string pyobj * result unit :=
  Config_setitem "env" (PStr "dev") >>
  Config_setitem "debug" (PBool false) >>
  Config_setitem "host" (PStr "127.0.0.1") >>
  Config_setitem "port" (PInt 4190) >>
  Config_setitem "log_level" (PStr "info") >>
  Config_setitem "hotreload" (PBool true) >>
  Config_setitem "allow_underline" (PBool false) >>
  Config_setitem "force_ssl" (PBool false) >>
  Config_setitem "allowed_hosts" (PList [PStr "*"]) >>
  Config_setitem "cors_allow_origins" (PTuple []) >>
  Config_setitem "cors_allow_methods" (PTuple [PStr "GET"]) >>
  Config_setitem "cors_allow_headers" (PTuple []) >>
  Config_setitem "cors_allow_credentials" (PBool false) >>
  Config_setitem "cors_allow_origin_regex" PNone >>
  Config_setitem "cors_expose_headers" (PTuple []) >>
  Config_setitem "cors_max_age" (PInt 600).

(** The loop of [Config.import_from_file] over the candidate names:
    [filename] is the file found so far, [warned] the warnings issued. *)
Fixpoint find_config_file (exists_ : string -> bool) (names : list string)
    (filename : option string) (warned : list string)
  : list string * result (option string) :=
  match names with
  | [] => (warned, Ok filename)
  | _filename :: rest =>
      if exists_ _filename then
        match filename with
        | Some found =>
            (warned, Raise (ConfigFileError (conflict_msg found _filename)))
        | None =>
            find_config_file exists_ rest (Some _filename)
              (if String.eqb _filename "config.json"
               then warned ++ [deprecation_msg] else warned)
        end
      else find_config_file exists_ rest filename warned
  end.

(** [os.path.exists] on the working directory of the world. *)
Definition path_exists (w : world) (name : string) : bool :=
  match files w name with
  | Some _ => true
  | None => false
  end.

(** [Config.import_from_file]: the storage left, the warnings issued and
    the outcome. *)
Definition Config_import_from_file (w : world) (d : gmap string pyobj)
  : gmap string pyobj * list string * result unit :=
  match find_config_file (path_exists w) candidates None [] with
  | (warned, Raise e) => (d, warned, Raise e)
  | (warned, Ok None) => (d, warned, Ok tt)
  | (warned, Ok (Some filename)) =>
      match files w filename with
      | None => (d, warned, Raise (IOError filename))
      | Some (Raise e) => (d, warned, Raise e)
      | Some (Ok (PDict data)) =>
          let '(d', r) := Config_update data d in (d', warned, r)
      | Some (Ok _) => (d, warned, Raise (ConfigError "config must be a dictionary."))
      end
  end.

(** [Config.__init__].  [super().__init__({})] binds the storage to a
    fresh empty [dict] and loops over no key. *)
Definition Config_init (w : world) : gmap string pyobj * list string * result unit :=
  let '(d, r) := Config_setdefault ∅ in
  match r with
  | Raise e => (d, [], Raise e)
  | Ok _ =>
      let '(d, warned, r) := Config_import_from_file w d in
      match r with
      | Raise e => (d, warned, Raise e)
      | Ok _ =>
          let '(d, r) := Config_update (_import_environ (environ w)) d in
          (d, warned, r)
      end
  end.

(** What the storage attribute of a [Config] is bound to after
    [__setattr__]: still the dictionary, or whatever object the caller
    put in its place. *)
Inductive slot : Type :=
  | Storage (d : gmap string pyobj)
  | Rebound (value : pyobj).

(** [Config.__setattr__]: only the mangled name of the storage attribute
    gets through to [object.__setattr__]. *)
Definition Config_setattr (name : string) (value : pyobj) (d : gmap string pyobj)
  : slot * result unit :=
  if String.eqb name "_UpperDict__dict" then (Rebound value, Ok tt)
  else (Storage d, Raise (ConfigError mutation_msg)).

(** [Config.__delattr__] *)
Definition Config_delattr (name : string) (d : gmap string pyobj)
  : gmap string pyobj * result unit :=
  (d, Raise (ConfigError mutation_msg)).

(** [Config.__delitem__] *)
Definition Config_delitem (key : string) (d : gmap string pyobj)
  : gmap string pyobj * result unit :=
  (d, Raise (ConfigError mutation_msg)).

(** [key.upper()] on whatever object [key] is.  On an [UpperDict] the
    attribute [upper] goes through [__getattr__], and what it finds is
    not callable. *)
Definition call_upper (key : pyobj) : result string :=
  match key with
  | PStr s => Ok (upper s)
  | PUpper c =>
      match UpperDict_getattr "upper" c with
      | Ok _ => Raise TypeError
      | Raise e => Raise e
      end
  | _ => Raise AttributeError
  end.

(** [env.get(key, default)] on whatever object [env] is. *)
Definition call_get (env : pyobj) (key : string) (default : pyobj) : result pyobj :=
  match env with
  | PDict items =>
      Ok (match dict_lookup key items with Some v => v | None => default end)
  | PUpper c => UpperDict_get key default c
  | _ => Raise AttributeError
  end.

(** [Config.get] *)
Definition Config_get (key : string) (default : pyobj) (d : gmap string pyobj)
  : result pyobj :=
  match UpperDict_getitem "env" d with
  | Raise e => Raise e
  | Ok name =>
      match call_upper name with
      | Raise e => Raise e
      | Ok NAME =>
          let env := match d !! NAME with Some o => o | None => PDict [] end in
          match call_get env key PNone with
          | Raise e => Raise e
          | Ok value =>
              if is_None value then UpperDict_get key default d
              else Ok value
          end
      end
  end.

(** Attribute access on the [Config] instance: [self.get] is [Config.get]. *)
Definition Config_getattr : string -> gmap string pyobj -> result pyobj :=
  getattr_via Config_get.

(** ** Vocabulary of the properties *)

(** A mapping: a plain [dict] or a Node. *)
Definition is_mapping (v : pyobj) : bool :=
  match v with
  | PDict _ | PUpper _ => true
  | _ => false
  end.

(** The elements of a sequence: of a list, of a tuple, of a string. *)
Definition elements_of (v : pyobj) : option (list pyobj) :=
  match v with
  | PList l | PTuple l => Some l
  | PStr s => Some ((fun c => PStr (String c "")) <$> list_ascii_of_string s)
  | _ => None
  end.


(** Worlds to run the construction in: an environment and a working
    directory given by their bindings. *)
Fixpoint binding {A : Type} (name : string) (l : list (string * A)) : option A :=
  match l with
  | [] => None
  | (n, a) :: rest => if String.eqb n name then Some a else binding name rest
  end.

Definition world_of (vars : list (string * string))
    (dir : list (string * result pyobj)) : world :=
  World (fun name => binding name vars) (fun name => binding name dir).

(** No variable set, no file: the defaults stand alone. *)
Definition bare_world : world := world_of [] [].

(** [index.json] holds [{"production": {"host": "0.0.0.0"}}] and
    [INDEX_ENV] is [production]. *)
Definition production_world : world :=
  world_of [("INDEX_ENV", "production")]
    [("index.json", Ok (PDict [("production", PDict [("host", PStr "0.0.0.0")])]))].

(** [index.json] holds [{"production": {"port": null}}] and [INDEX_ENV]
    is [production]. *)
Definition null_override_world : world :=
  world_of [("INDEX_ENV", "production")]
    [("index.json", Ok (PDict [("production", PDict [("port", PNone)])]))].

(** [config.json] and [index.yaml] both exist. *)
Definition conflicting_world : world :=
  world_of [] [("config.json", Ok (PDict [])); ("index.yaml", Ok (PDict []))].

(** The storage the construction leaves in each of these worlds. *)
Definition default_config : gmap string pyobj :=
  fst (fst (Config_init bare_world)).

Definition production_config : gmap string pyobj :=
  fst (fst (Config_init production_world)).

Definition null_override_config : gmap string pyobj :=
  fst (fst (Config_init null_override_world)).

(** Environments that set [INDEX_DEBUG] alone. *)
Definition debug_environ (value : string) : string -> option string :=
  environ (world_of [("INDEX_DEBUG", value)] []).

(** ** Vocabulary of the further properties *)

(** Data without [UpperDict] instances at the places [__setitem__] looks
    at: the value itself and, in a [dict], the values of its items.
    What [json.load] and [yaml.safe_load] return is of this kind. *)
Fixpoint plain (v : pyobj) : bool :=
  match v with
  | PUpper _ => false
  | PDict items =>
      (fix all (its : list (string * pyobj)) : bool :=
         match its with
         | [] => true
         | (_, x) :: rest => plain x && all rest
         end) items
  | _ => true
  end.

(** A storage in normal form: every key is upper-case, no value is a
    plain [dict], and every Node stored in it is in normal form too. *)
Inductive Node_ok (d : gmap string pyobj) : Prop :=
  | Node_ok_intro :
      (forall k v, d !! k = Some v ->
         upper k = k /\ is_dict v = false /\ forall c, v = PUpper c -> Node_ok c) ->
      Node_ok d.


(** The value [Config.__setitem__] hands on for the upper-cased key
    [KEY]: the [if]/[elif] chain of the method. *)
Definition coerced_value (KEY : string) (value : pyobj) : result pyobj :=
  if String.eqb KEY "DEBUG" then Ok (PBool (py_bool value))
  else if String.eqb KEY "PORT" then
    match py_int value with
    | Ok z => Ok (PInt z)
    | Raise e => Raise e
    end
  else if String.eqb KEY "ALLOWED_HOSTS" then
    match py_list value with
    | Ok l => Ok (PList (l ++ [PStr "testserver"]))
    | Raise e => Raise e
    end
  else Ok value.

(** The three coerced fields hold what their coercion produces: DEBUG a
    [bool], PORT an [int], ALLOWED_HOSTS a [list] whose last element is
    ["testserver"]. *)
Definition typed_fields (d : gmap string pyobj) : bool :=
  match d !! "DEBUG", d !! "PORT", d !! "ALLOWED_HOSTS" with
  | Some (PBool _), Some (PInt _), Some (PList l) =>
      match last l with
      | Some (PStr s) => String.eqb s "testserver"
      | _ => false
      end
  | _, _, _ => false
  end.


(** [name] is the one candidate file that exists. *)
Definition only_candidate (w : world) (name : string) : Prop :=
  name ∈ candidates
  /\ path_exists w name = true
  /\ forall other, other ∈ candidates -> other <> name -> path_exists w other = false.

(** The warnings issued when [name] is the file found. *)
Definition warnings_for (name : string) : list string :=
  if String.eqb name "config.json" then [deprecation_msg] else [].

(** [INDEX_ENV] names a root key that holds a string. *)
Definition host_env_world : world := world_of [("INDEX_ENV", "host")] [].

Definition host_env_config : gmap string pyobj :=
  fst (fst (Config_init host_env_world)).

(** Only the legacy [config.json] exists and holds [{"port": "8080"}]. *)
Definition legacy_world : world :=
  world_of [] [("config.json", Ok (PDict [("port", PStr "8080")]))].

(** Only [index.yml] exists and decodes to a list. *)
Definition list_root_world : world :=
  world_of [] [("index.yml", Ok (PList [PInt 1]))].

(** * Properties *)

(** ** Case folding *)

Lemma upper_char_idem (c : ascii) : upper_char (upper_char c) = upper_char c.
Proof. destruct c as [[] [] [] [] [] [] [] []]; reflexivity. Qed.

Lemma upper_idem (s : string) : upper (upper s) = upper s.
Proof.
  induction s as [|c s IH]; simpl; [reflexivity|].
  by rewrite upper_char_idem, IH.
Qed.





(** A value that is no [dict] is stored as it is. *)
Lemma UpperDict_setitem_plain (k : string) (v : pyobj) (d : gmap string pyobj) :
  is_dict v = false -> UpperDict_setitem k v d = (<[upper k := v]> d, Ok tt).
Proof. by destruct v. Qed.



(** ** Merging *)

Lemma UpperDict_setitem_dict (key : string) (items : list (string * pyobj))
    (d : gmap string pyobj) :
  UpperDict_setitem key (PDict items) d =
  match d !! upper key with
  | Some target =>
      let '(target', r) := for_items assign_item items target in
      (<[upper key := target']> d, r)
  | None =>
      let '(c, r) := UpperDict_init items in
      match r with
      | Ok _ => (<[upper key := PUpper c]> d, Ok tt)
      | Raise e => (d, Raise e)
      end
  end.
Proof. reflexivity. Qed.

(** [__setitem__] writes under its own key only. *)
Lemma UpperDict_setitem_frame (key k : string) (v : pyobj) (d : gmap string pyobj) :
  k <> upper key -> fst (UpperDict_setitem key v d) !! k = d !! k.
Proof.
  intros Hk. destruct v;
    try (rewrite UpperDict_setitem_plain by done; simpl; by rewrite lookup_insert_ne).
  rewrite UpperDict_setitem_dict.
  destruct (d !! upper key) as [target|].
  - destruct (for_items assign_item items target) as [t' r]. simpl.
    by rewrite lookup_insert_ne.
  - destruct (UpperDict_init items) as [c [[]|e]]; simpl; [|done].
    by rewrite lookup_insert_ne.
Qed.

(** [__setitem__] removes no key. *)
Lemma UpperDict_setitem_keeps (key k : string) (v : pyobj) (d : gmap string pyobj) :
  is_Some (d !! k) -> is_Some (fst (UpperDict_setitem key v d) !! k).
Proof.
  intros Hk. destruct (decide (k = upper key)) as [->|Hne];
    [|by rewrite UpperDict_setitem_frame].
  destruct v;
    try (rewrite UpperDict_setitem_plain by done; simpl; by rewrite lookup_insert_eq).
  rewrite UpperDict_setitem_dict.
  destruct (d !! upper key) as [target|] eqn:E.
  - destruct (for_items assign_item items target) as [t' r]. simpl.
    by rewrite lookup_insert_eq.
  - by destruct Hk.
Qed.





(** ** Reading through the active environment *)

(** [Config.get] when the environment name is a string: the object under
    that name, or an empty [dict], is asked first. *)
Lemma Config_get_named (key name : string) (default : pyobj) (d : gmap string pyobj) :
  d !! "ENV" = Some (PStr name) ->
  Config_get key default d =
  match call_get (match d !! upper name with Some o => o | None => PDict [] end)
          key PNone with
  | Raise e => Raise e
  | Ok value => if is_None value then UpperDict_get key default d else Ok value
  end.
Proof.
  intros E. unfold Config_get, UpperDict_getitem.
  change (upper "env") with "ENV". by rewrite E.
Qed.

(** C3. Environment-scoped read resolution.  Take a root with a
    root-level [host: "127.0.0.1"], a child Node [production] holding
    [host: "0.0.0.0"], and no [dev] entry.  With the [env] field
    [production], [get("host")] returns ["0.0.0.0"]; with the [env] field
    [dev], it returns ["127.0.0.1"]. *)
Theorem C3_environment_scoped_read (d c : gmap string pyobj) (default : pyobj) :
  d !! "HOST" = Some (PStr "127.0.0.1") ->
  d !! "PRODUCTION" = Some (PUpper c) ->
  c !! "HOST" = Some (PStr "0.0.0.0") ->
  d !! "DEV" = None ->
  Config_get "host" default (<["ENV" := PStr "production"]> d) = Ok (PStr "0.0.0.0")
  /\ Config_get "host" default (<["ENV" := PStr "dev"]> d) = Ok (PStr "127.0.0.1").
Proof.
  intros Hhost Hprod Hc Hdev. split.
  - rewrite (Config_get_named _ "production") by apply lookup_insert_eq.
    change (upper "production") with "PRODUCTION".
    rewrite lookup_insert_ne, Hprod by done.
    unfold call_get, UpperDict_get, UpperDict_getitem.
    change (upper "host") with "HOST". by rewrite Hc.
  - rewrite (Config_get_named _ "dev") by apply lookup_insert_eq.
    change (upper "dev") with "DEV".
    rewrite lookup_insert_ne, Hdev by done.
    unfold call_get, UpperDict_get, UpperDict_getitem. cbn [dict_lookup is_None].
    change (upper "host") with "HOST".
    by rewrite lookup_insert_ne, Hhost.
Qed.

Lemma C3_environment_scoped_read_witness :
  production_config !! "HOST" = Some (PStr "127.0.0.1")
  /\ production_config !! "PRODUCTION" = Some (PUpper {["HOST" := PStr "0.0.0.0"]})
  /\ ({["HOST" := PStr "0.0.0.0"]} : gmap string pyobj) !! "HOST"
     = Some (PStr "0.0.0.0")
  /\ production_config !! "DEV" = None
  /\ Config_get "host" PNone (<["ENV" := PStr "production"]> production_config)
     = Ok (PStr "0.0.0.0")
  /\ Config_get "host" PNone (<["ENV" := PStr "dev"]> production_config)
     = Ok (PStr "127.0.0.1").
Proof.
  set (d := production_config).
  assert (H1 : d !! "HOST" = Some (PStr "127.0.0.1")) by (vm_compute; reflexivity).
  assert (H2 : d !! "PRODUCTION" = Some (PUpper {["HOST" := PStr "0.0.0.0"]}))
    by (vm_compute; reflexivity).
  assert (H3 : ({["HOST" := PStr "0.0.0.0"]} : gmap string pyobj) !! "HOST"
               = Some (PStr "0.0.0.0")) by (vm_compute; reflexivity).
  assert (H4 : d !! "DEV" = None) by (vm_compute; reflexivity).
  repeat (split; [assumption|]).
  exact (C3_environment_scoped_read d _ PNone H1 H2 H3 H4).
Defined.

(** A [None] stored in the override Node is taken for an absent key: the
    read is that of the root. *)
Lemma Config_get_null_override
    (key name : string) (default : pyobj) (d c : gmap string pyobj) :
  d !! "ENV" = Some (PStr name) ->
  d !! upper name = Some (PUpper c) ->
  c !! upper key = Some PNone ->
  Config_get key default d = UpperDict_get key default d.
Proof.
  intros Henv Hc Hnull. rewrite (Config_get_named _ _ _ _ Henv), Hc.
  unfold call_get, UpperDict_get at 1, UpperDict_getitem at 1.
  by rewrite Hnull.
Qed.

(** From the defaults alone, [get("port")] is 4190 and [get("env")] is
    ["dev"]. *)
Example defaults_only :
  snd (Config_init bare_world) = Ok tt
  /\ Config_get "port" PNone default_config = Ok (PInt 4190)
  /\ Config_get "env" PNone default_config = Ok (PStr "dev").
Proof. vm_compute. repeat split; reflexivity. Qed.

(** C9. A key present in the override Node with the value [None] is not
    returned by [Config.get]: the lookup in the override uses [None] for
    "absent", so the read falls back on the root.  Here the construction
    reads [{"production": {"port": null}}] with [INDEX_ENV=production];
    the override Node holds PORT, as [None], and [get("port")] is the
    root's 4190. *)
Theorem C9_null_override_falls_back :
  snd (Config_init null_override_world) = Ok tt
  /\ null_override_config !! "ENV" = Some (PStr "production")
  /\ null_override_config !! "PRODUCTION" = Some (PUpper {["PORT" := PNone]})
  /\ UpperDict_getitem "port" {["PORT" := PNone]} = Ok PNone
  /\ Config_get "port" (PStr "absent") null_override_config = Ok (PInt 4190).
Proof. vm_compute. repeat split; reflexivity. Qed.

(** ** Mutation after construction *)


(** Item assignment stays open after construction, and so does the
    storage attribute: on the configuration built from the defaults,
    [config["host"] = "example.org"] returns normally and replaces the
    host, and assigning the attribute [_UpperDict__dict] rebinds the
    storage. *)
Lemma C4_reassignment_succeeds :
  snd (Config_init bare_world) = Ok tt
  /\ Config_get "host" PNone default_config = Ok (PStr "127.0.0.1")
  /\ snd (Config_setitem "host" (PStr "example.org") default_config) = Ok tt
  /\ Config_get "host" PNone
       (fst (Config_setitem "host" (PStr "example.org") default_config))
     = Ok (PStr "example.org")
  /\ Config_setattr "_UpperDict__dict" (PDict []) default_config
     = (Rebound (PDict []), Ok tt).
Proof. vm_compute. repeat split; reflexivity. Qed.

(** C4, amended. On every storage, that of a finished construction
    included, attribute assignment under any name but the storage
    attribute's own, attribute deletion and item deletion raise the
    [ConfigError] of a forbidden modification and leave the storage as it
    was, so that every read gives what it gave before. *)
Theorem C4_sealed_entry_points
    (d : gmap string pyobj) (name key : string) (value : pyobj) :
  name <> "_UpperDict__dict" ->
  Config_setattr name value d = (Storage d, Raise (ConfigError mutation_msg))
  /\ Config_delattr name d = (d, Raise (ConfigError mutation_msg))
  /\ Config_delitem key d = (d, Raise (ConfigError mutation_msg))
  /\ (forall k default,
        Config_get k default (fst (Config_delattr name d)) = Config_get k default d
        /\ Config_get k default (fst (Config_delitem key d)) = Config_get k default d).
Proof.
  intros Hname. repeat split.
  unfold Config_setattr.
  destruct (String.eqb name "_UpperDict__dict") eqn:E; [|reflexivity].
  by apply String.eqb_eq in E.
Qed.

Lemma C4_sealed_entry_points_witness :
  "host" <> "_UpperDict__dict"
  /\ Config_setattr "host" (PStr "example.org") default_config
     = (Storage default_config, Raise (ConfigError mutation_msg))
  /\ Config_delattr "host" default_config
     = (default_config, Raise (ConfigError mutation_msg))
  /\ Config_delitem "host" default_config
     = (default_config, Raise (ConfigError mutation_msg)).
Proof.
  set (d := default_config).
  assert (H : "host" <> "_UpperDict__dict") by discriminate.
  split; [exact H|].
  destruct (C4_sealed_entry_points d "host" "host" (PStr "example.org") H)
    as (Hset & Hdel & Hitem & _).
  repeat split; assumption.
Defined.

(** ** Locating the configuration file *)

Lemma candidates_cases (f : string) :
  f ∈ candidates ->
  f = "config.json" \/ f = "index.json" \/ f = "index.yaml" \/ f = "index.yml".
Proof. unfold candidates. rewrite !elem_of_cons, elem_of_nil. tauto. Qed.




(** On that directory the message names [config.json] and [index.yaml]. *)
Example conflict_config_json_index_yaml :
  snd (Config_init conflicting_world)
  = Raise (ConfigFileError
             "`config.json` and `index.yaml` cannot be used at the same project.").
Proof. vm_compute. reflexivity. Qed.

(** ** The debug flag of the environment *)

Lemma dict_lookup_setitem_ne (k k' : string) (v : pyobj)
    (items : list (string * pyobj)) :
  k <> k' -> dict_lookup k' (dict_setitem k v items) = dict_lookup k' items.
Proof.
  intros Hne. induction items as [|[j x] rest IH]; simpl.
  - apply String.eqb_neq in Hne. by rewrite Hne.
  - destruct (String.eqb j k) eqn:Ejk; simpl.
    + apply String.eqb_eq in Ejk. subst j.
      apply String.eqb_neq in Hne. by rewrite Hne.
    + by destruct (String.eqb j k').
Qed.

(** The [debug] entry of the overlay is decided by [INDEX_DEBUG] alone. *)
Lemma import_environ_debug (env : string -> option string) :
  dict_lookup "debug" (_import_environ env) =
  if environ_truthy (env "INDEX_DEBUG")
  then Some (PBool (debug_token (env "INDEX_DEBUG")))
  else None.
Proof.
  unfold _import_environ.
  assert (Hskip : forall s l,
            dict_lookup "debug" (dict_setitem "env" (PStr s) l)
            = dict_lookup "debug" l)
    by (intros; by apply dict_lookup_setitem_ne).
  destruct (env "INDEX_ENV") as [s|];
    [destruct (environ_truthy (Some s)); rewrite ?Hskip|];
    by destruct (environ_truthy (env "INDEX_DEBUG")).
Qed.

(** With [INDEX_DEBUG=true] the overlay holds [debug: False]: the
    spelling [true] is none of the two tokens compared against. *)
Lemma C6_lowercase_true_is_false :
  dict_lookup "debug" (_import_environ (debug_environ "true")) = Some (PBool false)
  /\ dict_lookup "debug" (_import_environ (debug_environ "true"))
     <> Some (PBool true).
Proof. split; [reflexivity|discriminate]. Qed.

(** C6, amended. The tokens are ["on"] and ["True"], spelled exactly so.
    If [INDEX_DEBUG] is one of them, the overlay holds [debug: True]; if
    it is any other non-empty string, lower-case ["true"] included, the
    overlay holds [debug: False]; if it is absent, the overlay holds no
    [debug] entry. *)
Theorem C6_debug_tokens (env : string -> option string) :
  (env "INDEX_DEBUG" = Some "on" \/ env "INDEX_DEBUG" = Some "True" ->
   dict_lookup "debug" (_import_environ env) = Some (PBool true))
  /\ (forall s, env "INDEX_DEBUG" = Some s ->
        s <> "" -> s <> "on" -> s <> "True" ->
        dict_lookup "debug" (_import_environ env) = Some (PBool false))
  /\ (env "INDEX_DEBUG" = None ->
      dict_lookup "debug" (_import_environ env) = None).
Proof.
  rewrite import_environ_debug. repeat split.
  - intros [E|E]; by rewrite E.
  - intros s E Hs Hon HTrue. rewrite E. simpl.
    apply String.eqb_neq in Hs, Hon, HTrue. by rewrite Hs, Hon, HTrue.
  - intros E. by rewrite E.
Qed.

Lemma C6_debug_tokens_witness :
  (debug_environ "on" "INDEX_DEBUG" = Some "on"
   /\ dict_lookup "debug" (_import_environ (debug_environ "on")) = Some (PBool true))
  /\ (debug_environ "true" "INDEX_DEBUG" = Some "true"
      /\ dict_lookup "debug" (_import_environ (debug_environ "true"))
         = Some (PBool false))
  /\ (environ bare_world "INDEX_DEBUG" = None
      /\ dict_lookup "debug" (_import_environ (environ bare_world)) = None).
Proof.
  set (on := debug_environ "on"). set (other := debug_environ "true").
  set (absent := environ bare_world).
  destruct (C6_debug_tokens on) as (Hon & _ & _).
  destruct (C6_debug_tokens other) as (_ & Hother & _).
  destruct (C6_debug_tokens absent) as (_ & _ & Habsent).
  split; [split; [reflexivity|]|split; [split; [reflexivity|]|split; [reflexivity|]]].
  - apply Hon. left. reflexivity.
  - apply (Hother "true"); [reflexivity|discriminate..].
  - apply Habsent. reflexivity.
Defined.

(** ** Coercions of the write path *)

Lemma Config_setitem_allowed_hosts (key : string) (v : pyobj)
    (d : gmap string pyobj) :
  upper key = "ALLOWED_HOSTS" ->
  Config_setitem key v d =
  match py_list v with
  | Ok l => (<["ALLOWED_HOSTS" := PList (l ++ [PStr "testserver"])]> d, Ok tt)
  | Raise e => (d, Raise e)
  end.
Proof.
  intros E. unfold Config_setitem. rewrite E. cbn [String.eqb Ascii.eqb Bool.eqb].
  destruct (py_list v) as [l|e]; [|reflexivity].
  by rewrite UpperDict_setitem_plain.
Qed.

(** C7. ALLOWED_HOSTS augmentation.  Setting the key, in any casing, to
    a sequence stores the list of the sequence's elements followed by the
    string ["testserver"]: every element of the sequence is in the stored
    list, and so is ["testserver"]. *)
Theorem C7_allowed_hosts_augmented
    (key : string) (v : pyobj) (elems : list pyobj) (d : gmap string pyobj) :
  upper key = "ALLOWED_HOSTS" ->
  elements_of v = Some elems ->
  exists stored,
    Config_setitem key v d = (<["ALLOWED_HOSTS" := PList stored]> d, Ok tt)
    /\ UpperDict_getitem "allowed_hosts" (fst (Config_setitem key v d))
       = Ok (PList stored)
    /\ stored = (elems ++ [PStr "testserver"])%list
    /\ (forall x, x ∈ elems -> x ∈ stored)
    /\ PStr "testserver" ∈ stored.
Proof.
  intros Hkey Hv. exists (elems ++ [PStr "testserver"])%list.
  assert (Hl : py_list v = Ok elems).
  { destruct v; simpl in Hv; try discriminate; by inversion Hv. }
  rewrite (Config_setitem_allowed_hosts _ _ _ Hkey), Hl. simpl.
  split; [reflexivity|]. split.
  - unfold UpperDict_getitem. change (upper "allowed_hosts") with "ALLOWED_HOSTS".
    by rewrite lookup_insert_eq.
  - split; [reflexivity|]. split.
    + intros x Hx. apply elem_of_app. by left.
    + apply elem_of_app. right. by apply list_elem_of_singleton.
Qed.

Lemma C7_allowed_hosts_augmented_witness :
  upper "Allowed_Hosts" = "ALLOWED_HOSTS"
  /\ elements_of (PList [PStr "example.com"]) = Some [PStr "example.com"]
  /\ exists stored,
       UpperDict_getitem "allowed_hosts"
         (fst (Config_setitem "Allowed_Hosts" (PList [PStr "example.com"]) ∅))
       = Ok (PList stored)
       /\ PStr "example.com" ∈ stored
       /\ PStr "testserver" ∈ stored.
Proof.
  split; [reflexivity|]. split; [reflexivity|].
  destruct (C7_allowed_hosts_augmented "Allowed_Hosts" (PList [PStr "example.com"])
              [PStr "example.com"] ∅)
    as (stored & _ & Hget & _ & Hall & Hts); [reflexivity|reflexivity|].
  exists stored. split; [exact Hget|]. split; [|exact Hts].
  apply Hall. by apply list_elem_of_singleton.
Defined.



(** ** A mapping set onto a key that holds no mapping *)




(** * Further properties *)

(** ** The normal form of a Node *)

Lemma pyobj_dict_ind (P : pyobj -> Prop) :
  (forall v, is_dict v = false -> P v) ->
  (forall items, Forall (fun kv => P (snd kv)) items -> P (PDict items)) ->
  forall v, P v.
Proof.
  intros Hleaf Hdict. fix IH 1. intros v.
  destruct v as [| |b|z|f|s|l|l|items|d]; try (apply Hleaf; reflexivity).
  apply Hdict. induction items as [|[k x] rest IHrest]; constructor.
  - apply IH.
  - exact IHrest.
Qed.

Lemma plain_items (items : list (string * pyobj)) :
  plain (PDict items) = true <-> Forall (fun kv => plain (snd kv) = true) items.
Proof.
  induction items as [|[k x] rest IH]; simpl.
  - split; [constructor|reflexivity].
  - simpl in IH. rewrite andb_true_iff, Forall_cons, IH. reflexivity.
Qed.

Lemma Node_ok_lookup (d : gmap string pyobj) (k : string) (v : pyobj) :
  Node_ok d -> d !! k = Some v ->
  upper k = k /\ is_dict v = false /\ forall c, v = PUpper c -> Node_ok c.
Proof. intros [H]. apply H. Qed.

Lemma Node_ok_empty : Node_ok ∅.
Proof. constructor. intros k v H. by rewrite lookup_empty in H. Qed.

Lemma Node_ok_insert (d : gmap string pyobj) (k : string) (v : pyobj) :
  Node_ok d -> is_dict v = false -> (forall c, v = PUpper c -> Node_ok c) ->
  Node_ok (<[upper k := v]> d).
Proof.
  intros Hd Hv Hc. constructor. intros j x Hj.
  destruct (decide (upper k = j)) as [<-|Hne].
  - rewrite lookup_insert_eq in Hj. inversion Hj; subst x.
    by rewrite upper_idem.
  - rewrite lookup_insert_ne in Hj by done. by apply (Node_ok_lookup d).
Qed.

(** Both loops of [__setitem__] keep the normal form once the
    assignments of their body do. *)
Lemma for_items_Node_ok (items : list (string * pyobj)) :
  Forall (fun kv => plain (snd kv) = true ->
            forall key d, Node_ok d ->
              Node_ok (fst (UpperDict_setitem key (snd kv) d))) items ->
  Forall (fun kv => plain (snd kv) = true) items ->
  (forall c, Node_ok c -> Node_ok (fst (for_items UpperDict_setitem items c)))
  /\ (forall c, Node_ok c ->
        exists c', fst (for_items assign_item items (PUpper c)) = PUpper c'
                   /\ Node_ok c').
Proof.
  intros IH Hplain. induction items as [|[k v] rest IHrest].
  { split; [done|]. intros c Hc. by exists c. }
  apply Forall_cons in IH as [IHv IH]. apply Forall_cons in Hplain as [Hv Hplain].
  destruct (IHrest IH Hplain) as [Hinit Hmerge]. simpl in *. split.
  - intros c Hc. specialize (IHv Hv k c Hc).
    destruct (UpperDict_setitem k v c) as [c1 [[]|e]]; simpl in *; [|done].
    by apply Hinit.
  - intros c Hc. specialize (IHv Hv (upper k) c Hc).
    destruct (UpperDict_setitem (upper k) v c) as [c1 [[]|e]]; simpl in *.
    + by apply Hmerge.
    + by exists c1.
Qed.

Lemma setitem_Node_ok (value : pyobj) :
  plain value = true ->
  forall (key : string) (d : gmap string pyobj),
    Node_ok d -> Node_ok (fst (UpperDict_setitem key value d)).
Proof.
  induction value as [v Hv|items IH] using pyobj_dict_ind; intros Hplain key d Hd.
  - rewrite UpperDict_setitem_plain by done. simpl.
    apply Node_ok_insert; [done|done|].
    intros c ->. discriminate.
  - apply plain_items in Hplain.
    destruct (for_items_Node_ok items IH Hplain) as [Hinit Hmerge].
    rewrite UpperDict_setitem_dict.
    destruct (d !! upper key) as [target|] eqn:E.
    + destruct (Node_ok_lookup d _ _ Hd E) as (_ & Hnd & Hnode).
      destruct target as [| |b|z|f|s|l|l|raw|c]; try discriminate.
      all: try (destruct items as [|[k v] rest]; cbn [for_items assign_item fst];
                (apply Node_ok_insert; [done|done|discriminate])).
      destruct (Hmerge c (Hnode c eq_refl)) as (c' & Hrun & Hc').
      destruct (for_items assign_item items (PUpper c)) as [t r].
      simpl in *. subst t. apply Node_ok_insert; [done|done|].
      by intros c0 [= <-].
    + unfold UpperDict_init.
      specialize (Hinit ∅ Node_ok_empty).
      destruct (for_items UpperDict_setitem items ∅) as [c [[]|e]]; simpl in *; [|done].
      apply Node_ok_insert; [done|done|]. by intros c0 [= <-].
Qed.


(** X1. [UpperDict.__setitem__] keeps a Node in normal form, whether it
    returns or raises: after setting any key to plain data, every key of
    the Node is upper-case, no stored value is a plain [dict], and the
    same holds inside every nested Node. *)
Theorem X1_setitem_keeps_normal_form
    (key : string) (value : pyobj) (d : gmap string pyobj) :
  plain value = true ->
  Node_ok d ->
  Node_ok (fst (UpperDict_setitem key value d))
  /\ forall k v, fst (UpperDict_setitem key value d) !! k = Some v ->
       upper k = k /\ is_dict v = false.
Proof.
  intros Hv Hd.
  assert (H : Node_ok (fst (UpperDict_setitem key value d)))
    by by apply setitem_Node_ok.
  split; [exact H|]. intros k v Hk.
  destruct (Node_ok_lookup _ _ _ H Hk) as (? & ? & _). by split.
Qed.

Lemma X1_setitem_keeps_normal_form_witness :
  plain (PDict [("tls", PDict [("cert", PStr "a.pem")])]) = true
  /\ Node_ok ∅
  /\ Node_ok (fst (UpperDict_setitem "production"
                     (PDict [("tls", PDict [("cert", PStr "a.pem")])]) ∅)).
Proof.
  split; [reflexivity|]. split; [exact Node_ok_empty|].
  exact (proj1 (X1_setitem_keeps_normal_form "production"
                  (PDict [("tls", PDict [("cert", PStr "a.pem")])]) ∅
                  eq_refl Node_ok_empty)).
Defined.



(** ** What an assignment leaves alone *)

(** X3. [__setitem__] touches one key only: whatever the value, and
    whether the call returns or raises, item access under a key that is
    not the assigned key up to case gives what it gave before. *)
Theorem X3_setitem_other_keys
    (key other : string) (value : pyobj) (d : gmap string pyobj) :
  upper other <> upper key ->
  UpperDict_getitem other (fst (UpperDict_setitem key value d))
  = UpperDict_getitem other d.
Proof.
  intros Hne. unfold UpperDict_getitem.
  by rewrite UpperDict_setitem_frame.
Qed.

Lemma X3_setitem_other_keys_witness :
  upper "port" <> upper "host"
  /\ UpperDict_getitem "port"
       (fst (UpperDict_setitem "host" (PDict [("a", PInt 1)])
               {["HOST" := PStr "h"; "PORT" := PInt 1]}))
     = UpperDict_getitem "port" {["HOST" := PStr "h"; "PORT" := PInt 1]}.
Proof.
  assert (H : upper "port" <> upper "host") by discriminate.
  split; [exact H|].
  exact (X3_setitem_other_keys "host" "port" (PDict [("a", PInt 1)]) _ H).
Defined.

(** X4. [__setitem__] never removes a key: a key that item access finds
    before the call is still found after it, whatever is assigned and
    whether the call returns or raises. *)
Theorem X4_setitem_keeps_keys
    (key other : string) (value old : pyobj) (d : gmap string pyobj) :
  UpperDict_getitem other d = Ok old ->
  exists now, UpperDict_getitem other (fst (UpperDict_setitem key value d)) = Ok now.
Proof.
  unfold UpperDict_getitem. intros H.
  destruct (d !! upper other) as [x|] eqn:E; [|discriminate].
  destruct (UpperDict_setitem_keeps key (upper other) value d) as [y Hy];
    [by rewrite E|].
  exists y. by rewrite Hy.
Qed.

Lemma X4_setitem_keeps_keys_witness :
  UpperDict_getitem "host" {["HOST" := PStr "h"]} = Ok (PStr "h")
  /\ exists now,
       UpperDict_getitem "host"
         (fst (UpperDict_setitem "host" (PDict [("a", PInt 1)]) {["HOST" := PStr "h"]}))
       = Ok now.
Proof.
  assert (H : UpperDict_getitem "host" {["HOST" := PStr "h"]} = Ok (PStr "h"))
    by reflexivity.
  split; [exact H|].
  exact (X4_setitem_keeps_keys "host" "host" (PDict [("a", PInt 1)]) _ _ H).
Defined.

(** ** Flat data *)








(** ** Attribute access *)



(** ** The write path of Config *)

Lemma Config_setitem_coerced (key : string) (value : pyobj) (d : gmap string pyobj) :
  Config_setitem key value d =
  match coerced_value (upper key) value with
  | Ok x => UpperDict_setitem (upper key) x d
  | Raise e => (d, Raise e)
  end.
Proof. reflexivity. Qed.

Lemma for_items_invariant {S : Type}
    (body : string -> pyobj -> S -> S * result unit)
    (I : S -> Prop) (Q : pyobj -> Prop) :
  (forall k v s, Q v -> I s -> I (fst (body k v s))) ->
  forall items, Forall (fun kv => Q (snd kv)) items ->
  forall s, I s -> I (fst (for_items body items s)).
Proof.
  intros Hbody items HQ. induction HQ as [|[k v] rest Hv _ IH]; intros s Hs; [done|].
  simpl. specialize (Hbody k v s Hv Hs).
  destruct (body k v s) as [s1 [[]|e]]; simpl in *; [by apply IH|done].
Qed.




(** The coerced fields keep their types under any assignment. *)
Lemma Config_setitem_typed (key : string) (value : pyobj) (d : gmap string pyobj) :
  typed_fields d = true -> typed_fields (fst (Config_setitem key value d)) = true.
Proof.
  intros Hd. rewrite Config_setitem_coerced. unfold coerced_value.
  unfold typed_fields in Hd.
  destruct (d !! "DEBUG") as [[| |b0| | | | | | |]|] eqn:ED; try discriminate.
  destruct (d !! "PORT") as [[| | |z0| | | | | |]|] eqn:EP; try discriminate.
  destruct (d !! "ALLOWED_HOSTS") as [[| | | | | |l0| | |]|] eqn:EA; try discriminate.
  destruct (String.eqb (upper key) "DEBUG") eqn:E1.
  { apply String.eqb_eq in E1. rewrite E1, UpperDict_setitem_plain by done.
    unfold typed_fields. simpl. change (upper "DEBUG") with "DEBUG".
    by rewrite lookup_insert_eq, !lookup_insert_ne, EP, EA by done. }
  destruct (String.eqb (upper key) "PORT") eqn:E2.
  { apply String.eqb_eq in E2. rewrite E2.
    destruct (py_int value) as [z|e]; simpl.
    - change (upper "PORT") with "PORT". unfold typed_fields.
      by rewrite lookup_insert_eq, !lookup_insert_ne, ED, EA by done.
    - unfold typed_fields. by rewrite ED, EP, EA. }
  destruct (String.eqb (upper key) "ALLOWED_HOSTS") eqn:E3.
  { apply String.eqb_eq in E3. rewrite E3.
    destruct (py_list value) as [l|e]; simpl.
    - change (upper "ALLOWED_HOSTS") with "ALLOWED_HOSTS". unfold typed_fields.
      rewrite lookup_insert_eq, !lookup_insert_ne, ED, EP by done.
      by rewrite last_snoc.
    - unfold typed_fields. by rewrite ED, EP, EA. }
  apply String.eqb_neq in E1, E2, E3.
  unfold typed_fields.
  rewrite !UpperDict_setitem_frame by (by rewrite upper_idem).
  by rewrite ED, EP, EA.
Qed.

Lemma Config_update_typed (data : list (string * pyobj)) (d : gmap string pyobj) :
  typed_fields d = true -> typed_fields (fst (Config_update data d)) = true.
Proof.
  intros Hd. unfold Config_update.
  apply (for_items_invariant Config_setitem
           (fun s => typed_fields s = true) (fun _ => True)); [| |done].
  - intros k v s _ Hs. by apply Config_setitem_typed.
  - by apply Forall_forall.
Qed.

Lemma Config_setdefault_empty : Config_setdefault ∅ = (default_config, Ok tt).
Proof.
  assert (Hs : snd (Config_setdefault ∅) = Ok tt) by (vm_compute; reflexivity).
  unfold default_config, Config_init.
  destruct (Config_setdefault ∅) as [d0 r]. simpl in Hs. subst r. reflexivity.
Qed.

(** The storage after [__init__] is reached from the defaults by the
    update from the file, if any, and the update from the environment. *)
Lemma Config_init_invariant (I : gmap string pyobj -> Prop) (w : world) :
  I default_config ->
  (forall name data d,
     files w name = Some (Ok (PDict data)) -> I d -> I (fst (Config_update data d))) ->
  (forall d, I d -> I (fst (Config_update (_import_environ (environ w)) d))) ->
  I (fst (fst (Config_init w))).
Proof.
  intros Hdef Hfile Henv. unfold Config_init, Config_import_from_file.
  rewrite Config_setdefault_empty.
  destruct (find_config_file (path_exists w) candidates None []) as [warned [[f|]|e]];
    [| |done].
  - destruct (files w f) as [[v|e]|] eqn:Ef; [| done | done].
    destruct v; try done.
    specialize (Hfile f items default_config Ef Hdef).
    destruct (Config_update items default_config) as [d1 [[]|e]]; simpl in *; [|done].
    specialize (Henv d1 Hfile).
    by destruct (Config_update (_import_environ (environ w)) d1).
  - specialize (Henv default_config Hdef).
    by destruct (Config_update (_import_environ (environ w)) default_config).
Qed.



(** X8. The coerced fields keep their types under every later write.
    On a [Config] whose DEBUG is a [bool], PORT an [int] and
    ALLOWED_HOSTS a [list] ending in ["testserver"], item assignment
    and [update], with any key and value and whether they return or
    raise, leave it so. *)
Theorem X8_writes_keep_field_types
    (key : string) (value : pyobj) (data : list (string * pyobj))
    (d : gmap string pyobj) :
  typed_fields d = true ->
  typed_fields (fst (Config_setitem key value d)) = true
  /\ typed_fields (fst (Config_update data d)) = true.
Proof.
  intros Hd. split; [by apply Config_setitem_typed|by apply Config_update_typed].
Qed.

Lemma X8_writes_keep_field_types_witness :
  typed_fields default_config = true
  /\ typed_fields (fst (Config_setitem "port" (PStr "abc") default_config)) = true
  /\ typed_fields
       (fst (Config_update [("debug", PStr "no"); ("allowed_hosts", PInt 3)]
               default_config)) = true.
Proof.
  assert (H : typed_fields default_config = true) by (vm_compute; reflexivity).
  split; [exact H|].
  exact (X8_writes_keep_field_types "port" (PStr "abc")
           [("debug", PStr "no"); ("allowed_hosts", PInt 3)] default_config H).
Defined.

(** X9. In every world, whatever the file holds and whether the
    construction completes or raises, the storage [__init__] leaves has
    a [bool] under DEBUG, an [int] under PORT and under ALLOWED_HOSTS a
    [list] whose last element is ["testserver"]. *)
Theorem X9_init_field_types (w : world) :
  typed_fields (fst (fst (Config_init w))) = true.
Proof.
  apply (Config_init_invariant (fun d => typed_fields d = true)).
  - vm_compute. reflexivity.
  - intros name data d _ Hd. by apply Config_update_typed.
  - intros d Hd. by apply Config_update_typed.
Qed.




(** X11. DEBUG takes the truth value of whatever is assigned.  Setting
    the key, in any casing, never raises and stores [bool(value)]; a
    mapping is not merged but coerced like any other value, and a
    non-empty string, ["false"] included, stores [True]. *)
Theorem X11_debug_coercion (key : string) (value : pyobj) (d : gmap string pyobj) :
  upper key = "DEBUG" ->
  Config_setitem key value d = (<["DEBUG" := PBool (py_bool value)]> d, Ok tt)
  /\ Config_setitem key (PStr "false") d = (<["DEBUG" := PBool true]> d, Ok tt).
Proof.
  intros E. rewrite !Config_setitem_coerced, E. unfold coerced_value.
  change (String.eqb "DEBUG" "DEBUG") with true. cbv iota.
  by rewrite !UpperDict_setitem_plain.
Qed.

Lemma X11_debug_coercion_witness :
  upper "Debug" = "DEBUG"
  /\ Config_setitem "Debug" (PDict [("a", PInt 1)]) default_config
     = (<["DEBUG" := PBool (py_bool (PDict [("a", PInt 1)]))]> default_config, Ok tt).
Proof.
  split; [reflexivity|].
  exact (proj1 (X11_debug_coercion "Debug" (PDict [("a", PInt 1)]) default_config
                  eq_refl)).
Defined.

(** An assignment whose coerced value is no [dict] is a plain store. *)
Lemma Config_setitem_stores (key : string) (value x : pyobj) (d : gmap string pyobj) :
  coerced_value (upper key) value = Ok x -> is_dict x = false ->
  Config_setitem key value d = (<[upper key := x]> d, Ok tt).
Proof.
  intros E Hx. rewrite Config_setitem_coerced, E.
  by rewrite UpperDict_setitem_plain, upper_idem.
Qed.

(** X12. [setdefault] overwrites.  On any storage it returns normally
    and leaves the defaults laid over what was there: each of the 16
    default keys holds its default value, whatever it held before, and
    every other key is as it was. *)
Theorem X12_setdefault_overwrites (d : gmap string pyobj) :
  Config_setdefault d = (default_config ∪ d, Ok tt)
  /\ (forall k, is_Some (default_config !! k) ->
        fst (Config_setdefault d) !! k = default_config !! k)
  /\ (forall k, default_config !! k = None ->
        fst (Config_setdefault d) !! k = d !! k).
Proof.
  assert (H : Config_setdefault d = (default_config ∪ d, Ok tt)).
  { assert (E := Config_setdefault_empty).
    unfold Config_setdefault, and_then in *.
    repeat (erewrite Config_setitem_stores in E by reflexivity).
    repeat (erewrite Config_setitem_stores by reflexivity).
    apply (f_equal fst) in E. cbn [fst] in E. f_equal. rewrite <- E at 1.
    rewrite <- !insert_union_l. by rewrite (left_id ∅ (∪)). }
  rewrite H. split; [reflexivity|]. split; simpl.
  - intros k [v Hv]. rewrite Hv. by apply lookup_union_Some_l.
  - intros k Hk. by rewrite lookup_union_r.
Qed.

Lemma X12_setdefault_overwrites_witness :
  is_Some (default_config !! "PORT")
  /\ fst (Config_setdefault {["PORT" := PStr "x"; "EXTRA" := PInt 1]}) !! "PORT"
     = default_config !! "PORT"
  /\ default_config !! "EXTRA" = None
  /\ fst (Config_setdefault {["PORT" := PStr "x"; "EXTRA" := PInt 1]}) !! "EXTRA"
     = ({["PORT" := PStr "x"; "EXTRA" := PInt 1]} : gmap string pyobj) !! "EXTRA".
Proof.
  destruct (X12_setdefault_overwrites {["PORT" := PStr "x"; "EXTRA" := PInt 1]})
    as (_ & Hdef & Hother).
  assert (H1 : is_Some (default_config !! "PORT"))
    by (exists (PInt 4190); vm_compute; reflexivity).
  assert (H2 : default_config !! "EXTRA" = None) by (vm_compute; reflexivity).
  split; [exact H1|]. split; [exact (Hdef _ H1)|].
  split; [exact H2|]. exact (Hother _ H2).
Defined.

(** X13. [update] with the items of two mappings one after the other is
    [update] with the first and then, if that returned, [update] with the
    second; when the first raises, the second is not applied and the
    storage is what the first left. *)
Theorem X13_update_append
    (first second : list (string * pyobj)) (d : gmap string pyobj) :
  Config_update (first ++ second) d
  = (Config_update first >> Config_update second) d.
Proof.
  unfold Config_update, and_then. revert d.
  induction first as [|[k v] rest IH]; intros d; [reflexivity|].
  simpl. destruct (Config_setitem k v d) as [d1 [[]|e]]; [apply IH|reflexivity].
Qed.

(** X14. The write path of ALLOWED_HOSTS is not idempotent: writing back
    the list that item access returns stores that list with one more
    ["testserver"] at its end. *)
Theorem X14_allowed_hosts_write_back (d : gmap string pyobj) (stored : list pyobj) :
  UpperDict_getitem "allowed_hosts" d = Ok (PList stored) ->
  Config_setitem "allowed_hosts" (PList stored) d
  = (<["ALLOWED_HOSTS" := PList (stored ++ [PStr "testserver"])]> d, Ok tt)
  /\ UpperDict_getitem "allowed_hosts"
       (fst (Config_setitem "allowed_hosts" (PList stored) d))
     <> Ok (PList stored).
Proof.
  intros _.
  assert (H : Config_setitem "allowed_hosts" (PList stored) d
              = (<["ALLOWED_HOSTS" := PList (stored ++ [PStr "testserver"])]> d, Ok tt))
    by (by apply Config_setitem_stores).
  rewrite H. split; [reflexivity|]. unfold UpperDict_getitem. simpl.
  change (upper "allowed_hosts") with "ALLOWED_HOSTS". rewrite lookup_insert_eq.
  intros [= E]. apply (f_equal length) in E. rewrite length_app in E. simpl in E. lia.
Qed.

Lemma X14_allowed_hosts_write_back_witness :
  UpperDict_getitem "allowed_hosts" default_config
  = Ok (PList [PStr "*"; PStr "testserver"])
  /\ Config_setitem "allowed_hosts" (PList [PStr "*"; PStr "testserver"]) default_config
     = (<["ALLOWED_HOSTS" :=
            PList ([PStr "*"; PStr "testserver"] ++ [PStr "testserver"])]>
          default_config, Ok tt).
Proof.
  assert (H : UpperDict_getitem "allowed_hosts" default_config
              = Ok (PList [PStr "*"; PStr "testserver"]))
    by (vm_compute; reflexivity).
  split; [exact H|].
  exact (proj1 (X14_allowed_hosts_write_back default_config _ H)).
Defined.

(** ** The environment overlay and its precedence *)

Lemma dict_lookup_setitem_eq (k : string) (v : pyobj) (items : list (string * pyobj)) :
  dict_lookup k (dict_setitem k v items) = Some v.
Proof.
  induction items as [|[j x] rest IH]; simpl.
  - by rewrite String.eqb_refl.
  - destruct (String.eqb j k) eqn:E; simpl; by rewrite E.
Qed.

(** X15. The overlay of [_import_environ] has an [env] entry, the value
    of [INDEX_ENV] as a string, exactly when that variable is set and not
    empty; it has a [debug] entry exactly when [INDEX_DEBUG] is set and
    not empty; and it has no other key.  A variable set to the empty
    string counts as unset. *)
Theorem X15_import_environ_entries (env : string -> option string) :
  dict_lookup "env" (_import_environ env)
  = (if environ_truthy (env "INDEX_ENV") then PStr <$> env "INDEX_ENV" else None)
  /\ dict_lookup "debug" (_import_environ env)
     = (if environ_truthy (env "INDEX_DEBUG")
        then Some (PBool (debug_token (env "INDEX_DEBUG"))) else None)
  /\ environ_truthy (Some "") = false
  /\ Forall (fun kv => fst kv = "debug" \/ fst kv = "env") (_import_environ env).
Proof.
  split; [|split; [apply import_environ_debug|split; [reflexivity|]]].
  - unfold _import_environ.
    destruct (env "INDEX_ENV") as [s|]; simpl.
    + destruct (String.eqb s ""); simpl; [|apply dict_lookup_setitem_eq].
      by destruct (environ_truthy (env "INDEX_DEBUG")).
    + by destruct (environ_truthy (env "INDEX_DEBUG")).
  - unfold _import_environ.
    destruct (environ_truthy (env "INDEX_DEBUG"));
      destruct (env "INDEX_ENV") as [s|]; try destruct (environ_truthy (Some s));
      cbn [dict_setitem String.eqb Ascii.eqb Bool.eqb];
      repeat (apply Forall_cons; split; [simpl; auto|]); by apply Forall_nil.
Qed.

(** The update from the environment never raises and writes what the
    variables say. *)
Lemma Config_update_environ (env : string -> option string) (d : gmap string pyobj) :
  snd (Config_update (_import_environ env) d) = Ok tt
  /\ (forall s, env "INDEX_ENV" = Some s -> s <> "" ->
        fst (Config_update (_import_environ env) d) !! "ENV" = Some (PStr s))
  /\ (environ_truthy (env "INDEX_DEBUG") = true ->
        fst (Config_update (_import_environ env) d) !! "DEBUG"
        = Some (PBool (debug_token (env "INDEX_DEBUG")))).
Proof.
  unfold _import_environ, Config_update.
  destruct (environ_truthy (env "INDEX_DEBUG")) eqn:ED;
    destruct (env "INDEX_ENV") as [s|] eqn:EE;
    try destruct (environ_truthy (Some s)) eqn:ES;
    cbn [dict_setitem String.eqb Ascii.eqb Bool.eqb for_items];
    repeat (erewrite Config_setitem_stores by reflexivity);
    cbn [fst snd];
    (split; [reflexivity|]); split; try discriminate; try done.
  all: try (intros s' [= <-] Hs'; change (upper "env") with "ENV";
            by rewrite lookup_insert_eq).
  all: try (intros _; change (upper "env") with "ENV";
            change (upper "debug") with "DEBUG";
            rewrite ?lookup_insert_ne by done; by rewrite lookup_insert_eq).
  all: intros s' [= <-] Hs'; apply String.eqb_neq in Hs';
    simpl in ES; by rewrite Hs' in ES.
Qed.

(** X16. The environment has the last word.  When the construction
    completes, ENV is the value of [INDEX_ENV] if that variable is set
    and not empty, and DEBUG is the token test of [INDEX_DEBUG] if that
    one is, whatever the defaults and the file say for these keys. *)
Theorem X16_environment_precedence (w : world) :
  snd (Config_init w) = Ok tt ->
  (forall s, environ w "INDEX_ENV" = Some s -> s <> "" ->
     fst (fst (Config_init w)) !! "ENV" = Some (PStr s))
  /\ (environ_truthy (environ w "INDEX_DEBUG") = true ->
      fst (fst (Config_init w)) !! "DEBUG"
      = Some (PBool (debug_token (environ w "INDEX_DEBUG")))).
Proof.
  unfold Config_init. rewrite Config_setdefault_empty.
  destruct (Config_import_from_file w default_config) as [[d1 warned] [[]|e]];
    [|discriminate].
  intros _.
  destruct (Config_update_environ (environ w) d1) as (_ & Henv & Hdebug).
  destruct (Config_update (_import_environ (environ w)) d1) as [d2 r].
  by split.
Qed.

Lemma X16_environment_precedence_witness :
  snd (Config_init
         (world_of [("INDEX_ENV", "staging"); ("INDEX_DEBUG", "on")]
            [("index.json", Ok (PDict [("env", PStr "production");
                                       ("debug", PBool false)]))])) = Ok tt
  /\ fst (fst (Config_init
                 (world_of [("INDEX_ENV", "staging"); ("INDEX_DEBUG", "on")]
                    [("index.json", Ok (PDict [("env", PStr "production");
                                               ("debug", PBool false)]))])))
     !! "ENV" = Some (PStr "staging").
Proof.
  assert (H : snd (Config_init
         (world_of [("INDEX_ENV", "staging"); ("INDEX_DEBUG", "on")]
            [("index.json", Ok (PDict [("env", PStr "production");
                                       ("debug", PBool false)]))])) = Ok tt)
    by (vm_compute; reflexivity).
  split; [exact H|].
  apply (proj1 (X16_environment_precedence _ H)); [reflexivity|discriminate].
Defined.

(** ** Loading the file *)

Lemma find_config_file_none (ex : string -> bool) :
  (forall name, name ∈ candidates -> ex name = false) ->
  find_config_file ex candidates None [] = ([], Ok None).
Proof.
  intros H. unfold candidates in *. cbn [find_config_file].
  by rewrite !H by (rewrite !elem_of_cons; tauto).
Qed.

Lemma find_config_file_only (w : world) (name : string) :
  only_candidate w name ->
  find_config_file (path_exists w) candidates None []
  = (warnings_for name, Ok (Some name)).
Proof.
  intros (Hin & Hex & Hothers).
  assert (Hrest : forall other, other ∈ candidates ->
            path_exists w other = if String.eqb other name then true else false).
  { intros other Ho. destruct (String.eqb other name) eqn:E.
    - apply String.eqb_eq in E. by subst.
    - apply String.eqb_neq in E. by apply Hothers. }
  unfold candidates in *. cbn [find_config_file].
  rewrite !Hrest by (rewrite !elem_of_cons; tauto).
  apply candidates_cases in Hin.
  destruct Hin as [-> | [-> | [-> | ->]]]; reflexivity.
Qed.

(** X17. When none of the four candidate files exists,
    [import_from_file] does nothing: it returns normally, issues no
    warning and leaves the storage as it was. *)
Theorem X17_no_candidate_no_op (w : world) (d : gmap string pyobj) :
  (forall name, name ∈ candidates -> path_exists w name = false) ->
  Config_import_from_file w d = (d, [], Ok tt).
Proof.
  intros H. unfold Config_import_from_file.
  by rewrite (find_config_file_none _ H).
Qed.

Lemma X17_no_candidate_no_op_witness :
  (forall name, name ∈ candidates -> path_exists bare_world name = false)
  /\ Config_import_from_file bare_world default_config = (default_config, [], Ok tt).
Proof.
  assert (H : forall name, name ∈ candidates -> path_exists bare_world name = false)
    by (intros name _; reflexivity).
  split; [exact H|]. exact (X17_no_candidate_no_op bare_world default_config H).
Defined.

(** X18. A file that cannot be used changes nothing.  When exactly one
    candidate exists and decoding it raises, that exception goes through
    unchanged; when it decodes to anything but a [dict], a list or
    [None] for instance, the call raises [ConfigError] with the message
    "config must be a dictionary.".  In both cases the storage is as it
    was. *)
Theorem X18_unusable_file
    (w : world) (name : string) (d : gmap string pyobj) :
  only_candidate w name ->
  (forall e, files w name = Some (Raise e) ->
     Config_import_from_file w d = (d, warnings_for name, Raise e))
  /\ (forall v, files w name = Some (Ok v) -> is_dict v = false ->
        Config_import_from_file w d
        = (d, warnings_for name, Raise (ConfigError "config must be a dictionary."))).
Proof.
  intros Hname. unfold Config_import_from_file.
  rewrite (find_config_file_only _ _ Hname). split.
  - intros e ->. reflexivity.
  - intros v -> Hv. by destruct v.
Qed.

Lemma X18_unusable_file_witness :
  only_candidate list_root_world "index.yml"
  /\ Config_import_from_file list_root_world default_config
     = (default_config, warnings_for "index.yml",
        Raise (ConfigError "config must be a dictionary.")).
Proof.
  assert (H : only_candidate list_root_world "index.yml").
  { split; [unfold candidates; rewrite !elem_of_cons; tauto|].
    split; [reflexivity|].
    intros other Ho Hne. apply candidates_cases in Ho.
    destruct Ho as [-> | [-> | [-> | ->]]]; try reflexivity. by destruct Hne. }
  split; [exact H|].
  exact (proj2 (X18_unusable_file list_root_world "index.yml" default_config H)
           (PList [PInt 1]) eq_refl eq_refl).
Defined.

(** X19. The one file found is loaded through [update].  When exactly
    one candidate exists and decodes to a [dict], [import_from_file]
    leaves what [update] with that [dict] leaves and returns or raises as
    [update] does.  The deprecation warning is issued if and only if the
    file is the legacy [config.json], which is loaded all the same. *)
Theorem X19_single_file_loaded
    (w : world) (name : string) (data : list (string * pyobj))
    (d : gmap string pyobj) :
  only_candidate w name ->
  files w name = Some (Ok (PDict data)) ->
  Config_import_from_file w d
  = (fst (Config_update data d), warnings_for name, snd (Config_update data d))
  /\ (name = "config.json" -> warnings_for name = [deprecation_msg])
  /\ (name <> "config.json" -> warnings_for name = []).
Proof.
  intros Hname Hfile. unfold Config_import_from_file.
  rewrite (find_config_file_only _ _ Hname), Hfile.
  split; [by destruct (Config_update data d)|]. unfold warnings_for. split.
  - by intros ->.
  - intros Hne. apply String.eqb_neq in Hne. by rewrite Hne.
Qed.

Lemma X19_single_file_loaded_witness :
  only_candidate legacy_world "config.json"
  /\ files legacy_world "config.json" = Some (Ok (PDict [("port", PStr "8080")]))
  /\ Config_import_from_file legacy_world default_config
     = (fst (Config_update [("port", PStr "8080")] default_config),
        warnings_for "config.json",
        snd (Config_update [("port", PStr "8080")] default_config))
  /\ warnings_for "config.json" = [deprecation_msg].
Proof.
  assert (H : only_candidate legacy_world "config.json").
  { split; [unfold candidates; rewrite !elem_of_cons; tauto|].
    split; [reflexivity|].
    intros other Ho Hne. apply candidates_cases in Ho.
    destruct Ho as [-> | [-> | [-> | ->]]]; try reflexivity. by destruct Hne. }
  assert (Hf : files legacy_world "config.json"
               = Some (Ok (PDict [("port", PStr "8080")]))) by reflexivity.
  split; [exact H|]. split; [exact Hf|].
  destruct (X19_single_file_loaded legacy_world "config.json" _ default_config H Hf)
    as (Hload & Hwarn & _).
  split; [exact Hload|]. exact (Hwarn eq_refl).
Defined.

(** ** Reads *)

(** X20. The override wins.  When the Node stored under the environment
    name holds the requested key with a value other than [None],
    [Config.get] returns that value, whatever the root holds under the
    key and whatever the default. *)
Theorem X20_override_wins
    (key name : string) (default v : pyobj) (d c : gmap string pyobj) :
  d !! "ENV" = Some (PStr name) ->
  d !! upper name = Some (PUpper c) ->
  c !! upper key = Some v ->
  v <> PNone ->
  Config_get key default d = Ok v.
Proof.
  intros Henv Hc Hv Hnone. rewrite (Config_get_named _ _ _ _ Henv), Hc.
  unfold call_get, UpperDict_get, UpperDict_getitem. rewrite Hv.
  by destruct v.
Qed.

Lemma X20_override_wins_witness :
  production_config !! "ENV" = Some (PStr "production")
  /\ production_config !! upper "production" = Some (PUpper {["HOST" := PStr "0.0.0.0"]})
  /\ ({["HOST" := PStr "0.0.0.0"]} : gmap string pyobj) !! upper "Host"
     = Some (PStr "0.0.0.0")
  /\ PStr "0.0.0.0" <> PNone
  /\ Config_get "Host" PNone production_config = Ok (PStr "0.0.0.0").
Proof.
  assert (H1 : production_config !! "ENV" = Some (PStr "production"))
    by (vm_compute; reflexivity).
  assert (H2 : production_config !! upper "production"
               = Some (PUpper {["HOST" := PStr "0.0.0.0"]}))
    by (vm_compute; reflexivity).
  assert (H3 : ({["HOST" := PStr "0.0.0.0"]} : gmap string pyobj) !! upper "Host"
               = Some (PStr "0.0.0.0")) by (vm_compute; reflexivity).
  assert (H4 : PStr "0.0.0.0" <> PNone) by discriminate.
  repeat (split; [assumption|]).
  exact (X20_override_wins "Host" "production" PNone _ _ _ H1 H2 H3 H4).
Defined.

(** X21. Without an override the root answers.  When nothing is stored
    under the environment name, or the Node stored there lacks the
    requested key, [Config.get] never raises: it returns the root's value
    under the key, a stored [None] included, and the default when the
    root has no such key. *)
Theorem X21_root_fallback
    (key name : string) (default : pyobj) (d : gmap string pyobj) :
  d !! "ENV" = Some (PStr name) ->
  (d !! upper name = None
   \/ exists c, d !! upper name = Some (PUpper c) /\ c !! upper key = None) ->
  Config_get key default d
  = Ok (match d !! upper key with Some v => v | None => default end).
Proof.
  intros Henv Hover. rewrite (Config_get_named _ _ _ _ Henv).
  assert (Hroot : UpperDict_get key default d
                  = Ok (match d !! upper key with Some v => v | None => default end)).
  { unfold UpperDict_get, UpperDict_getitem. by destruct (d !! upper key). }
  destruct Hover as [E|(c & E & Hc)]; rewrite E.
  - exact Hroot.
  - unfold call_get, UpperDict_get at 1, UpperDict_getitem at 1.
    rewrite Hc. exact Hroot.
Qed.

Lemma X21_root_fallback_witness :
  default_config !! "ENV" = Some (PStr "dev")
  /\ (default_config !! upper "dev" = None
      \/ exists c, default_config !! upper "dev" = Some (PUpper c)
                   /\ c !! upper "missing" = None)
  /\ Config_get "missing" (PInt 7) default_config = Ok (PInt 7).
Proof.
  assert (H1 : default_config !! "ENV" = Some (PStr "dev")) by (vm_compute; reflexivity).
  assert (H2 : default_config !! upper "dev" = None
               \/ exists c, default_config !! upper "dev" = Some (PUpper c)
                            /\ c !! upper "missing" = None)
    by (left; vm_compute; reflexivity).
  split; [exact H1|]. split; [exact H2|].
  assert (H := X21_root_fallback "missing" "dev" (PInt 7) default_config H1 H2).
  assert (H3 : default_config !! upper "missing" = None) by (vm_compute; reflexivity).
  rewrite H3 in H. exact H.
Defined.

(** X22. An environment name that is the name of an ordinary key breaks
    every read.  When the root stores under the environment name a value
    that is no mapping, a string or a number for instance, [Config.get]
    raises [AttributeError] for every key and default: the code calls
    [get] on that value without checking that it is a mapping. *)
Theorem X22_env_names_scalar
    (key name : string) (default o : pyobj) (d : gmap string pyobj) :
  d !! "ENV" = Some (PStr name) ->
  d !! upper name = Some o ->
  is_mapping o = false ->
  Config_get key default d = Raise AttributeError.
Proof.
  intros Henv Ho Hmap. rewrite (Config_get_named _ _ _ _ Henv), Ho.
  by destruct o.
Qed.

Lemma X22_env_names_scalar_witness :
  snd (Config_init host_env_world) = Ok tt
  /\ host_env_config !! "ENV" = Some (PStr "host")
  /\ host_env_config !! upper "host" = Some (PStr "127.0.0.1")
  /\ is_mapping (PStr "127.0.0.1") = false
  /\ Config_get "port" PNone host_env_config = Raise AttributeError.
Proof.
  assert (H0 : snd (Config_init host_env_world) = Ok tt) by (vm_compute; reflexivity).
  assert (H1 : host_env_config !! "ENV" = Some (PStr "host"))
    by (vm_compute; reflexivity).
  assert (H2 : host_env_config !! upper "host" = Some (PStr "127.0.0.1"))
    by (vm_compute; reflexivity).
  assert (H3 : is_mapping (PStr "127.0.0.1") = false) by reflexivity.
  repeat (split; [assumption|]).
  exact (X22_env_names_scalar "port" "host" PNone _ _ H1 H2 H3).
Defined.



(** ** The only failure of an assignment *)



